(** * Users and tasks over a document store: a model of the lesson's service

    The service is an Express application with two resources.  Its code is
    [index.js] (the entry point), [config/connectToMongoDB.js] (the
    connection bootstrap) and the modules the lesson builds step by step:
    [models/User.js], [models/Task.js], the two controllers and the two
    routers.

    The program is embedded shallowly.  An [async] function becomes a
    computation in a state-and-exception monad over a [world] that holds
    everything the code can observe or change: the process environment, the
    console, mongoose's connection, the collections of the store, and the
    Express application.  Awaiting a promise is sequencing; a rejected
    promise is a thrown error.

    mongoose, express and express-validator are not part of the repository.
    The parts of them the code calls are modelled after their documented
    behaviour, with these limits: the fields of a JSON body are strings;
    lower case is taken on the ASCII letters; requests are handled one
    after the other; paths are compared as they are written. *)

From Stdlib Require Import NArith Ascii String.
From stdpp Require Import base option list gmap strings pretty.

Local Open Scope string_scope.
Local Open Scope list_scope.
Local Open Scope N_scope.

(** ** Errors, outcomes and the monad of effects *)

(** A JavaScript [Error]: its class name and its message. *)
Record JsError := mkError { error_name : string; error_message : string }.

Inductive outcome (A : Type) :=
| Returned (a : A)
| Thrown (error : JsError).
Arguments Returned {A} a.
Arguments Thrown {A} error.

(** ** Documents *)

(** A stored identifier is the 96-bit number an ObjectId denotes. *)
Definition ObjectId := N.

#[warnings="-register-all"]
Inductive value :=
| VString (s : string)
| VObjectId (id : ObjectId)
| VDate (t : N)
| VNull
| VDoc (doc : gmap string value).

Abbreviation Document := (gmap string value).

(** A JSON object with string fields: [req.body], [req.params]. *)
Abbreviation Fields := (gmap string string).

(** ** Schemas *)

Inductive SchemaType := TString | TObjectId.

Record SchemaPath := {
  type : SchemaType;
  required : bool;
  lowercase : bool;
  unique : bool;
  ref : option string
}.

Record Schema := {
  paths : list (string * SchemaPath);
  timestamps : bool
}.

Record Model := { modelName : string; schema : Schema }.

(** A query under construction: [Model.find(filter).populate(path)]. *)
Record Query := {
  q_model : Model;
  q_filter : Fields;
  q_populate : list string
}.

(** ** The world *)

Inductive method := GET | POST.

(** What the process writes to its console: a text, an error object, or
    the line the request logger writes for an answered request. *)
Inductive log_entry :=
| LogText (s : string)
| LogError (error : JsError)
| LogRequest (m : method) (url : string) (code : N).

(** Calls made into mongoose, in the order they were made. *)
Inductive api_call :=
| CallConnect (uri : option string)
| CallCreate (collection : string) (data : Fields)
| CallFind (collection : string) (filter : Fields) (populate : list string).

(** mongoose in the process: its options, whether its connection is open,
    the calls it has received, the next identifier it hands out (the real
    ones combine the time, a random value and a counter) and its clock. *)
Record Mongoose := {
  options : gmap string bool;
  connected : bool;
  calls : list api_call;
  next_id : ObjectId;
  now : N
}.

(** The store behind the connection string: its collections, and whether it
    answers ([None]) or fails every command with some error. *)
Record MongoDB := {
  fault : option JsError;
  collections : gmap string (list Document)
}.

Inductive router := userRouter | taskRouter.

Inductive layer :=
| express_json
| logger (format : string)
| mount (prefix : string) (r : router).

(** Callbacks waiting for their event.  The only one the program registers
    is the function passed to [app.listen]. *)
Inductive callback := listen_callback.

(** The application: its layers in the order they were registered, the
    port it listens on, and the callbacks the event loop has yet to run. *)
Record Express := {
  stack : list layer;
  listening : option N;
  pending : list callback
}.

(** Everything the program can observe or change.  [unhandled] collects
    the rejections of promises nobody awaits: one is enough for Node to
    stop the process. *)
Record world := {
  env : Fields;
  console : list log_entry;
  mongoose : Mongoose;
  mongodb : MongoDB;
  app : Express;
  unhandled : list JsError
}.

Definition M (A : Type) : Type := world -> outcome A * world.

Definition ret {A} (a : A) : M A := fun w => (Returned a, w).

Definition throw {A} (error : JsError) : M A := fun w => (Thrown error, w).

Definition bind {A B} (m : M A) (k : A -> M B) : M B :=
  fun w =>
    match m w with
    | (Returned a, w') => k a w'
    | (Thrown error, w') => (Thrown error, w')
    end.

(** [try { body } catch (error) { handler }]: the effects of [body] up to the
    throw stay. *)
Definition try_catch {A} (body : M A) (handler : JsError -> M A) : M A :=
  fun w =>
    match body w with
    | (Returned a, w') => (Returned a, w')
    | (Thrown error, w') => handler error w'
    end.

(** Calling an [async] function without [await]: its effects happen, the
    caller goes on, and a rejection nobody handles is recorded. *)
Definition detached {A} (m : M A) : M unit :=
  fun w =>
    match m w with
    | (Returned _, w') => (Returned tt, w')
    | (Thrown error, w') =>
        (Returned tt,
         {| env := env w'; console := console w'; mongoose := mongoose w';
            mongodb := mongodb w'; app := app w';
            unhandled := unhandled w' ++ [error] |})
    end.

Declare Scope js_scope.
Delimit Scope js_scope with js.
Notation "x <- m ;; k" := (bind m (fun x => k))
  (at level 100, m at next level, right associativity) : js_scope.
Notation "m ;; k" := (bind m (fun _ => k))
  (at level 100, right associativity) : js_scope.
Local Open Scope js_scope.

Definition get {A} (f : world -> A) : M A := fun w => (Returned (f w), w).

Definition modify (f : world -> world) : M unit := fun w => (Returned tt, f w).

Definition with_console (f : list log_entry -> list log_entry) (w : world) : world :=
  {| env := env w; console := f (console w); mongoose := mongoose w;
     mongodb := mongodb w; app := app w; unhandled := unhandled w |}.

Definition with_mongoose (f : Mongoose -> Mongoose) (w : world) : world :=
  {| env := env w; console := console w; mongoose := f (mongoose w);
     mongodb := mongodb w; app := app w; unhandled := unhandled w |}.

Definition with_mongodb (f : MongoDB -> MongoDB) (w : world) : world :=
  {| env := env w; console := console w; mongoose := mongoose w;
     mongodb := f (mongodb w); app := app w; unhandled := unhandled w |}.

Definition with_app (f : Express -> Express) (w : world) : world :=
  {| env := env w; console := console w; mongoose := mongoose w;
     mongodb := mongodb w; app := f (app w); unhandled := unhandled w |}.

Definition console_log (entry : log_entry) : M unit :=
  modify (with_console (fun out => out ++ [entry])).

(** ** Strings *)

(** [String.prototype.toLowerCase], on the ASCII letters. *)
Definition lower_ascii (c : ascii) : ascii :=
  let n := N_of_ascii c in
  if (65 <=? n) && (n <=? 90) then ascii_of_N (n + 32) else c.

Fixpoint toLowerCase (s : string) : string :=
  match s with
  | EmptyString => EmptyString
  | String c rest => String (lower_ascii c) (toLowerCase rest)
  end.

Definition hex_digit (c : ascii) : option N :=
  let n := N_of_ascii c in
  if (48 <=? n) && (n <=? 57) then Some (n - 48)
  else if (65 <=? n) && (n <=? 70) then Some (n - 55)
  else if (97 <=? n) && (n <=? 102) then Some (n - 87)
  else None.

Fixpoint all_hex (s : string) : bool :=
  match s with
  | EmptyString => true
  | String c rest => bool_decide (is_Some (hex_digit c)) && all_hex rest
  end.

Fixpoint parse_hex (acc : N) (s : string) : N :=
  match s with
  | EmptyString => acc
  | String c rest => parse_hex (16 * acc + default 0 (hex_digit c)) rest
  end.

(** ** validator.js and express-validator *)

(** The string predicates of validator.js that the chains use. *)
Module validator.

(** [isEmpty(str)]: the string has length zero. *)
Definition isEmpty (str : string) : bool := bool_decide (str = "").

(** [isHexadecimal(str)]: one or more hexadecimal digits. *)
Definition isHexadecimal (str : string) : bool :=
  negb (isEmpty str) && all_hex str.

(** [isMongoId(str)]: the hexadecimal form of an ObjectId, 24 digits. *)
Definition isMongoId (str : string) : bool :=
  isHexadecimal str && bool_decide (String.length str = 24%nat).

End validator.

(** A validation chain names a field of the request and collects
    validators; each validator is a predicate on strings, possibly negated,
    with the message to report when it fails. *)
Inductive Location := in_body | in_params.

Record Validator := {
  negated : bool;
  test : string -> bool;
  msg : string
}.

Record ValidationChain := {
  location : Location;
  path : string;
  validators : list Validator
}.

Record ValidationError := {
  err_location : Location;
  err_path : string;
  err_value : option string;
  err_msg : string
}.

Record Request := { req_body : Fields; req_params : Fields }.

Definition body (field : string) : ValidationChain :=
  {| location := in_body; path := field; validators := [] |}.

Definition param (field : string) : ValidationChain :=
  {| location := in_params; path := field; validators := [] |}.

Definition add_validator (v : Validator) (chain : ValidationChain) : ValidationChain :=
  {| location := location chain; path := path chain;
     validators := validators chain ++ [v] |}.

(** [.notEmpty()] is [.not().isEmpty()]. *)
Definition notEmpty : ValidationChain -> ValidationChain :=
  add_validator {| negated := true; test := validator.isEmpty; msg := "Invalid value" |}.

(** [.isMongoId()] *)
Definition isMongoId : ValidationChain -> ValidationChain :=
  add_validator {| negated := false; test := validator.isMongoId; msg := "Invalid value" |}.

(** [.withMessage(m)] sets the message of the validator added last. *)
Definition withMessage (m : string) (chain : ValidationChain) : ValidationChain :=
  {| location := location chain; path := path chain;
     validators :=
       match reverse (validators chain) with
       | [] => []
       | v :: before =>
           reverse before ++
           [{| negated := negated v; test := test v; msg := m |}]
       end |}.

Notation "chain |> f" := (f chain) (at level 45, left associativity, only parsing).

Definition select (l : Location) (req : Request) : Fields :=
  match l with in_body => req_body req | in_params => req_params req end.

(** A validator sees its field as a string; an absent field is the empty
    string. *)
Definition toString (v : option string) : string := default "" v.

(** A validator reports an error when its predicate, negated or not, does
    not hold of the field. *)
Definition run_validator (req : Request) (chain : ValidationChain) (v : Validator)
  : list ValidationError :=
  let value := select (location chain) req !! path chain in
  let holds := test v (toString value) in
  if (if negated v then holds else negb holds)
  then [{| err_location := location chain; err_path := path chain;
           err_value := value; err_msg := msg v |}]
  else [].

Definition run_chain (req : Request) (chain : ValidationChain) : list ValidationError :=
  flat_map (run_validator req chain) (validators chain).

(** [validationResult(req)] after the chains of a route have run. *)
Definition validationResult (chains : list ValidationChain) (req : Request)
  : list ValidationError :=
  flat_map (run_chain req) chains.

(** ** mongoose *)

(** Casting a string to an ObjectId: 24 hexadecimal digits, read as a
    number, so that the case of the digits does not matter. *)
Definition castObjectId (s : string) : option ObjectId :=
  if bool_decide (String.length s = 24%nat) && all_hex s
  then Some (parse_hex 0 s)
  else None.

(** Equality of stored values.  Populated documents exist only in query
    results and are never compared. *)
Definition value_eqb (a b : value) : bool :=
  match a, b with
  | VString s, VString s' => bool_decide (s = s')
  | VObjectId i, VObjectId i' => bool_decide (i = i')
  | VDate t, VDate t' => bool_decide (t = t')
  | VNull, VNull => true
  | _, _ => false
  end.

(** The collection of a model: its name in lower case, in the plural. *)
Definition collection_of (model_name : string) : string :=
  toLowerCase model_name +:+ "s".

Definition collection_name (m : Model) : string := collection_of (modelName m).

Definition model (model_name : string) (s : Schema) : Model :=
  {| modelName := model_name; schema := s |}.

Definition schema_path (s : Schema) (p : string) : option SchemaPath :=
  snd <$> List.find (fun entry => bool_decide (fst entry = p)) (paths s).

Definition documents (db : MongoDB) (collection : string) : list Document :=
  default [] (collections db !! collection).

Definition with_options (f : gmap string bool -> gmap string bool) (m : Mongoose) : Mongoose :=
  {| options := f (options m); connected := connected m; calls := calls m;
     next_id := next_id m; now := now m |}.

Definition with_connected (b : bool) (m : Mongoose) : Mongoose :=
  {| options := options m; connected := b; calls := calls m;
     next_id := next_id m; now := now m |}.

Definition with_call (c : api_call) (m : Mongoose) : Mongoose :=
  {| options := options m; connected := connected m; calls := calls m ++ [c];
     next_id := next_id m; now := now m |}.

Definition with_next_id (id : ObjectId) (m : Mongoose) : Mongoose :=
  {| options := options m; connected := connected m; calls := calls m;
     next_id := id; now := now m |}.

Definition insert_document (collection : string) (doc : Document) (db : MongoDB) : MongoDB :=
  {| fault := fault db;
     collections := <[collection := documents db collection ++ [doc]]> (collections db) |}.

Definition called (c : api_call) : M unit := modify (with_mongoose (with_call c)).

(** [mongoose.set(key, value)]. *)
Definition mongoose_set (key : string) (b : bool) : M unit :=
  modify (with_mongoose (with_options <[key := b]>)).

(** [mongoose.connect(uri)]: fails without a connection string and when the
    store does not answer; otherwise the connection is open. *)
Definition mongoose_connect (uri : option string) : M unit :=
  called (CallConnect uri) ;;
  match uri with
  | None =>
      throw (mkError "MongooseError"
               "The uri parameter to openUri() must be a string, got undefined")
  | Some _ =>
      failure <- get (fun w => fault (mongodb w)) ;;
      match failure with
      | Some error => throw error
      | None => modify (with_mongoose (with_connected true))
      end
  end.

(** A command sent to the store: without a connection it is buffered until
    it times out; with one, it fails when the store does. *)
Definition command (operation : string) : M unit :=
  open <- get (fun w => connected (mongoose w)) ;;
  if open : bool then
    failure <- get (fun w => fault (mongodb w)) ;;
    match failure with
    | Some error => throw error
    | None => ret tt
    end
  else
    throw (mkError "MongooseError"
             ("Operation " +:+ operation +:+ " buffering timed out after 10000ms")).

(** The value a schema path gives to a field of the input, or the reason the
    document is invalid. *)
Definition cast_path (p : string) (sp : SchemaPath) (raw : option string)
  : string + option value :=
  match raw with
  | None =>
      if required sp then inl ("Path " +:+ p +:+ " is required.") else inr None
  | Some s =>
      match type sp with
      | TString =>
          let s' := if lowercase sp then toLowerCase s else s in
          if required sp && validator.isEmpty s'
          then inl ("Path " +:+ p +:+ " is required.")
          else inr (Some (VString s'))
      | TObjectId =>
          match castObjectId s with
          | Some id => inr (Some (VObjectId id))
          | None => inl ("Cast to ObjectId failed at path " +:+ p)
          end
      end
  end.

(** Fields outside the schema are dropped. *)
Fixpoint cast_document (ps : list (string * SchemaPath)) (data : Fields)
  : list string * Document :=
  match ps with
  | [] => ([], ∅)
  | (p, sp) :: rest =>
      let '(errors, doc) := cast_document rest data in
      match cast_path p sp (data !! p) with
      | inl reason => ((p +:+ ": " +:+ reason) :: errors, doc)
      | inr None => (errors, doc)
      | inr (Some v) => (errors, <[p := v]> doc)
      end
  end.

Definition join (sep : string) (l : list string) : string :=
  match l with
  | [] => ""
  | s :: rest => fold_left (fun acc x => acc +:+ sep +:+ x) rest s
  end.

(** The key a unique index holds for a document: an absent field counts as
    null. *)
Definition index_key (p : string) (doc : Document) : value :=
  default VNull (doc !! p).

Definition unique_paths (s : Schema) : list string :=
  fst <$> List.filter (fun entry => unique (snd entry)) (paths s).

Definition duplicate_keys (s : Schema) (doc : Document) (docs : list Document)
  : list string :=
  List.filter
    (fun p => existsb (fun d => value_eqb (index_key p d) (index_key p doc)) docs)
    (unique_paths s).

Definition stamp (s : Schema) (t : N) (doc : Document) : Document :=
  if timestamps s
  then <["createdAt" := VDate t]> (<["updatedAt" := VDate t]> doc)
  else doc.

(** [Model.create(data)]: build the document, validate it against the
    schema, insert it under the unique indexes of the collection. *)
Definition create (m : Model) (data : Fields) : M Document :=
  called (CallCreate (collection_name m) data) ;;
  id <- get (fun w => next_id (mongoose w)) ;;
  modify (with_mongoose (with_next_id (id + 1))) ;;
  let '(errors, fields) := cast_document (paths (schema m)) data in
  match errors with
  | _ :: _ =>
      throw (mkError "ValidationError"
               (modelName m +:+ " validation failed: " +:+ join ", " errors))
  | [] =>
      command (collection_name m +:+ ".insertOne()") ;;
      docs <- get (fun w => documents (mongodb w) (collection_name m)) ;;
      t <- get (fun w => now (mongoose w)) ;;
      let doc := <["_id" := VObjectId id]> (stamp (schema m) t fields) in
      match duplicate_keys (schema m) doc docs with
      | p :: _ =>
          throw (mkError "MongoServerError"
                   ("E11000 duplicate key error collection: " +:+ collection_name m
                    +:+ " index: " +:+ p +:+ "_1"))
      | [] =>
          modify (with_mongodb (insert_document (collection_name m) doc)) ;;
          ret doc
      end
  end.

(** [Model.find(filter)] and [query.populate(path)] build a query; nothing
    runs before the query is awaited. *)
Definition find (m : Model) (filter : Fields) : Query :=
  {| q_model := m; q_filter := filter; q_populate := [] |}.

Definition populate (p : string) (q : Query) : Query :=
  {| q_model := q_model q; q_filter := q_filter q;
     q_populate := q_populate q ++ [p] |}.

(** One condition of a filter, cast by the schema.  A key outside the schema
    is dropped under [strictQuery] and compared as it is otherwise. *)
Definition cast_condition (s : Schema) (strictQuery : bool) (condition : string * string)
  : string + option (string * value) :=
  let '(p, raw) := condition in
  match (if bool_decide (p = "_id") then Some TObjectId else type <$> schema_path s p) with
  | Some TString =>
      let lower := default false (lowercase <$> schema_path s p) in
      inr (Some (p, VString (if lower then toLowerCase raw else raw)))
  | Some TObjectId =>
      match castObjectId raw with
      | Some id => inr (Some (p, VObjectId id))
      | None => inl ("Cast to ObjectId failed at path " +:+ p)
      end
  | None => if strictQuery then inr None else inr (Some (p, VString raw))
  end.

Fixpoint cast_filter (s : Schema) (strictQuery : bool) (conditions : list (string * string))
  : string + list (string * value) :=
  match conditions with
  | [] => inr []
  | condition :: rest =>
      match cast_condition s strictQuery condition, cast_filter s strictQuery rest with
      | inl reason, _ => inl reason
      | _, inl reason => inl reason
      | inr None, inr conds => inr conds
      | inr (Some cond), inr conds => inr (cond :: conds)
      end
  end.

Definition matches (conds : list (string * value)) (doc : Document) : bool :=
  forallb
    (fun cond =>
       match doc !! fst cond with
       | Some v => value_eqb v (snd cond)
       | None => false
       end)
    conds.

Definition findById (docs : list Document) (id : ObjectId) : option Document :=
  List.find (fun d => value_eqb (index_key "_id" d) (VObjectId id)) docs.

(** Populating a path replaces the identifier it holds by the document of
    that identifier in the referenced collection, and by null when the
    collection has no such document. *)
Definition populate_path (db : MongoDB) (s : Schema) (doc : Document) (p : string)
  : Document :=
  match schema_path s p ≫= ref, doc !! p with
  | Some target, Some (VObjectId id) =>
      <[p := match findById (documents db (collection_of target)) id with
             | Some referenced => VDoc referenced
             | None => VNull
             end]> doc
  | _, _ => doc
  end.

Definition populate_all (db : MongoDB) (s : Schema) (ps : list string) (doc : Document)
  : Document :=
  fold_left (populate_path db s) ps doc.

(** Awaiting a query runs it: cast the filter, read the collection, keep the
    matching documents in their stored order, populate them. *)
Definition exec (q : Query) : M (list Document) :=
  let m := q_model q in
  called (CallFind (collection_name m) (q_filter q) (q_populate q)) ;;
  strictQuery <- get (fun w => default false (options (mongoose w) !! "strictQuery")) ;;
  match cast_filter (schema m) strictQuery (map_to_list (q_filter q)) with
  | inl reason => throw (mkError "CastError" (reason +:+ " for model " +:+ modelName m))
  | inr conds =>
      match List.find (fun p => bool_decide (schema_path (schema m) p ≫= ref = None))
                      (q_populate q) with
      | Some p =>
          throw (mkError "StrictPopulateError"
                   ("Cannot populate path " +:+ p +:+ " because it is not in your schema"))
      | None =>
          command (collection_name m +:+ ".find()") ;;
          db <- get mongodb ;;
          ret (populate_all db (schema m) (q_populate q)
                 <$> List.filter (matches conds) (documents db (collection_name m)))
      end
  end.

(** ** The models *)

(** models/User.js *)
Definition userSchema : Schema :=
  {| paths :=
       [ ("username",
          {| type := TString; required := true; lowercase := true;
             unique := true; ref := None |}) ];
     timestamps := true |}.

Definition User : Model := model "User" userSchema.

(** models/Task.js *)
Definition taskSchema : Schema :=
  {| paths :=
       [ ("title",
          {| type := TString; required := true; lowercase := false;
             unique := false; ref := None |});
         ("user",
          {| type := TObjectId; required := true; lowercase := false;
             unique := false; ref := Some "User" |}) ];
     timestamps := true |}.

Definition Task : Model := model "Task" taskSchema.

(** ** The controllers *)

(** controllers/usersController.js *)
Definition createUser (userData : Fields) : M Document :=
  try_catch
    (newUser <- create User userData ;;
     ret newUser)
    (fun error => throw error).

(** controllers/tasksController.js *)
Definition createTask (taskData : Fields) : M Document :=
  try_catch
    (newTask <- create Task taskData ;;
     ret newTask)
    (fun error => throw error).

Definition getTasksByUser (userId : string) : M (list Document) :=
  try_catch
    (tasks <- exec (find Task {[ "user" := userId ]} |> populate "user") ;;
     ret tasks)
    (fun error => throw error).

(** ** Responses *)

Inductive Payload :=
| PDocument (doc : Document)
| PDocuments (docs : list Document)
| PErrors (errors : list ValidationError)
| PText (s : string).

Record Envelope := { message : string; payload : Payload }.

Record Response := { statusCode : N; sent : option Envelope }.

(** The response object a handler receives. *)
Definition res : Response := {| statusCode := 200; sent := None |}.

Definition status (code : N) (r : Response) : Response :=
  {| statusCode := code; sent := sent r |}.

Definition json (e : Envelope) (r : Response) : Response :=
  {| statusCode := statusCode r; sent := Some e |}.

Definition errors_isEmpty (errors : list ValidationError) : bool :=
  bool_decide (errors = []).

Definition errors_array (errors : list ValidationError) : list ValidationError :=
  errors.

(** ** The routers *)

(** routes/usersRouter.js *)
Definition usersRouter_post_chains : list ValidationChain :=
  [ body "username" |> notEmpty |> withMessage "Username is required" ].

Definition usersRouter_post (req : Request) : M Response :=
  let errors := validationResult usersRouter_post_chains req in
  if negb (errors_isEmpty errors) then
    ret (res |> status 400
             |> json {| message := "validation failure";
                        payload := PErrors (errors_array errors) |})
  else
    try_catch
      (user <- createUser (req_body req) ;;
       ret (res |> json {| message := "success"; payload := PDocument user |}))
      (fun error =>
         ret (res |> status 500
                  |> json {| message := "failure";
                             payload := PText (error_message error) |})).

(** routes/tasksRouter.js *)
Definition tasksRouter_post_chains : list ValidationChain :=
  [ body "title" |> notEmpty |> withMessage "Title is required";
    body "user" |> isMongoId
                |> withMessage "User ID must be a valid MongoDB ObjectId" ].

Definition tasksRouter_post (req : Request) : M Response :=
  let errors := validationResult tasksRouter_post_chains req in
  if negb (errors_isEmpty errors) then
    ret (res |> status 400
             |> json {| message := "validation failure";
                        payload := PErrors (errors_array errors) |})
  else
    try_catch
      (task <- createTask (req_body req) ;;
       ret (res |> json {| message := "success"; payload := PDocument task |}))
      (fun error =>
         ret (res |> status 500
                  |> json {| message := "failure";
                             payload := PText (error_message error) |})).

Definition tasksRouter_get_chains : list ValidationChain :=
  [ param "userId" |> isMongoId |> withMessage "Invalid user ID" ].

(** Express gives a matched route every parameter of its path, so
    [req.params.userId] is a string in the handler. *)
Definition tasksRouter_get (req : Request) : M Response :=
  let errors := validationResult tasksRouter_get_chains req in
  if negb (errors_isEmpty errors) then
    ret (res |> status 400
             |> json {| message := "validation failure";
                        payload := PErrors (errors_array errors) |})
  else
    try_catch
      (tasks <- getTasksByUser (toString (req_params req !! "userId")) ;;
       ret (res |> json {| message := "success"; payload := PDocuments tasks |}))
      (fun error =>
         ret (res |> status 500
                  |> json {| message := "failure";
                             payload := PText (error_message error) |})).

(** The three validated routes of the service. *)
Inductive route :=
| POST_users          (* POST /api/users *)
| POST_tasks          (* POST /api/tasks *)
| GET_tasks_by_user.  (* GET /api/tasks/user/:userId *)

Definition chains (r : route) : list ValidationChain :=
  match r with
  | POST_users => usersRouter_post_chains
  | POST_tasks => tasksRouter_post_chains
  | GET_tasks_by_user => tasksRouter_get_chains
  end.

Definition handle (r : route) : Request -> M Response :=
  match r with
  | POST_users => usersRouter_post
  | POST_tasks => tasksRouter_post
  | GET_tasks_by_user => tasksRouter_get
  end.

(** ** Routing *)

(** The segments of a path: the pieces between slashes that are not empty. *)
Fixpoint segments_from (current : string) (s : string) : list string :=
  match s with
  | EmptyString =>
      match current with EmptyString => [] | _ => [current] end
  | String c rest =>
      if Ascii.eqb c "/"
      then match current with EmptyString => [] | _ => [current] end
           ++ segments_from "" rest
      else segments_from (current +:+ String c "") rest
  end.

Definition segments (s : string) : list string := segments_from "" s.

(** What is left of a path under a mount point. *)
Fixpoint strip_prefix (prefix url : list string) : option (list string) :=
  match prefix, url with
  | [], _ => Some url
  | p :: ps, s :: ss => if String.eqb p s then strip_prefix ps ss else None
  | _ :: _, [] => None
  end.

(** Matching a route path such as [/user/:userId]: a segment that starts
    with a colon binds a parameter, any other must be equal. *)
Fixpoint match_pattern (pattern url : list string) (bound : Fields) : option Fields :=
  match pattern, url with
  | [], [] => Some bound
  | String ":" field :: ps, s :: ss => match_pattern ps ss (<[field := s]> bound)
  | p :: ps, s :: ss => if String.eqb p s then match_pattern ps ss bound else None
  | _, _ => None
  end.

Definition method_eqb (a b : method) : bool :=
  match a, b with
  | GET, GET | POST, POST => true
  | _, _ => false
  end.

(** The routes each router declares, in order. *)
Definition routes (r : router) : list (method * string * route) :=
  match r with
  | userRouter => [ (POST, "/", POST_users) ]
  | taskRouter =>
      [ (POST, "/", POST_tasks);
        (GET, "/user/:userId", GET_tasks_by_user) ]
  end.

Fixpoint find_route (table : list (method * string * route)) (m : method)
    (url : list string) : option (route * Fields) :=
  match table with
  | [] => None
  | (m', pattern, r) :: rest =>
      match (if method_eqb m m' then match_pattern (segments pattern) url ∅ else None) with
      | Some bound => Some (r, bound)
      | None => find_route rest m url
      end
  end.

(** The answer of Express when no layer takes the request. *)
Definition not_found : Response := {| statusCode := 404; sent := None |}.

(** A request goes through the layers in the order they were registered.
    The body parser makes the body available to the layers after it; the
    logger writes a line once the request is answered; a mounted router
    takes the request when the path is under its prefix and one of its
    routes matches, and lets it pass otherwise. *)
Fixpoint through (layers : list layer) (m : method) (url : string)
    (payload : Fields) (parsed : bool) : M Response :=
  match layers with
  | [] => ret not_found
  | express_json :: rest => through rest m url payload true
  | logger _ :: rest =>
      response <- through rest m url payload parsed ;;
      console_log (LogRequest m url (statusCode response)) ;;
      ret response
  | mount prefix r :: rest =>
      match strip_prefix (segments prefix) (segments url) ≫= find_route (routes r) m with
      | Some (matched, bound) =>
          handle matched
            {| req_body := if parsed then payload else ∅; req_params := bound |}
      | None => through rest m url payload parsed
      end
  end.

(** An HTTP request sent to the process: nobody answers unless the
    application is listening. *)
Definition serve (m : method) (url : string) (payload : Fields) : M (option Response) :=
  a <- get app ;;
  match listening a with
  | None => ret None
  | Some _ =>
      response <- through (stack a) m url payload false ;;
      ret (Some response)
  end.

(** ** The connection bootstrap *)

(** config/connectToMongoDB.js *)
Definition connectToMongoDB : M unit :=
  mongoose_set "strictQuery" false ;;
  try_catch
    (uri <- get (fun w => env w !! "MONGODB_URI") ;;
     mongoose_connect uri ;;
     console_log (LogText "MONGODB CONNECTED"))
    (fun error => console_log (LogError error)).

(** The second copy of the bootstrap in the repository, which leaves
    mongoose's options alone. *)
Definition connectToMongoDB_bare : M unit :=
  try_catch
    (uri <- get (fun w => env w !! "MONGODB_URI") ;;
     mongoose_connect uri ;;
     console_log (LogText "MONGODB CONNECTED"))
    (fun error => console_log (LogError error)).

(** ** The entry point *)

Definition PORT : N := 3000.

Definition app_use (l : layer) : M unit :=
  modify (with_app (fun a =>
    {| stack := stack a ++ [l]; listening := listening a; pending := pending a |})).

(** [app.listen(port, callback)] binds the port; the callback runs later,
    from the event loop, once the server is listening. *)
Definition app_listen (port : N) (cb : callback) : M unit :=
  modify (with_app (fun a =>
    {| stack := stack a; listening := Some port; pending := pending a ++ [cb] |})).

(** index.js as it stands in the repository. *)
Definition index_js : M unit :=
  app_use express_json ;;
  app_use (logger "dev") ;;
  app_listen PORT listen_callback.

(** The lines step 5 of the lesson adds to index.js. *)
Definition index_js_routers : M unit :=
  app_use (mount "/api/users" userRouter) ;;
  app_use (mount "/api/tasks" taskRouter).

(** index.js after step 5. *)
Definition main : M unit :=
  index_js ;;
  index_js_routers.

Definition run_callback (cb : callback) : M unit :=
  match cb with
  | listen_callback =>
      console_log (LogText ("server is on port " +:+ pretty PORT +:+ "...")) ;;
      detached connectToMongoDB
  end.

(** One turn of the event loop: the oldest waiting callback runs. *)
Definition turn : M unit :=
  waiting <- get (fun w => pending (app w)) ;;
  match waiting with
  | [] => ret tt
  | cb :: rest =>
      modify (with_app (fun a =>
        {| stack := stack a; listening := listening a; pending := rest |})) ;;
      run_callback cb
  end.

(** A process that has just started: nothing logged, nothing configured,
    no connection, an application without layers. *)
Definition boot (environment : Fields) (store : MongoDB) : world :=
  {| env := environment;
     console := [];
     mongoose := {| options := ∅; connected := false; calls := [];
                    next_id := 0; now := 0 |};
     mongodb := store;
     app := {| stack := []; listening := None; pending := [] |};
     unhandled := [] |}.

(** ** Vocabulary of the properties *)

Definition users (w : world) : list Document := documents (mongodb w) "users".

Definition tasks (w : world) : list Document := documents (mongodb w) "tasks".

(** The store can be queried: the connection is open and the store answers. *)
Definition available (w : world) : Prop :=
  connected (mongoose w) = true /\ fault (mongodb w) = None.

(** A task whose [user] field holds the identifier [id]. *)
Definition references (id : ObjectId) (task : Document) : bool :=
  match task !! "user" with
  | Some (VObjectId id') => bool_decide (id' = id)
  | _ => false
  end.

(** What populating a reference to [id] yields in a store. *)
Definition resolved (db : MongoDB) (id : ObjectId) : value :=
  match findById (documents db "users") id with
  | Some user => VDoc user
  | None => VNull
  end.

(** A field that is missing or empty. *)
Definition missing_or_empty (v : option string) : Prop :=
  v = None \/ v = Some "".

(** A string of exactly 24 hexadecimal digits. *)
Definition well_formed_id (s : string) : Prop :=
  String.length s = 24%nat /\
  forall c, c ∈ list_ascii_of_string s -> is_Some (hex_digit c).

(** A field that is missing or is not the text of an identifier. *)
Definition not_an_id (v : option string) : Prop :=
  forall s, v = Some s -> ~ well_formed_id s.


Definition respond (code : N) (tag : string) (p : Payload) : Response :=
  {| statusCode := code; sent := Some {| message := tag; payload := p |} |}.



(** A response of one of the three shapes the routes produce. *)
Definition enveloped (response : Response) : Prop :=
  (exists doc, response = respond 200 "success" (PDocument doc)) \/
  (exists docs, response = respond 200 "success" (PDocuments docs)) \/
  (exists errors, response = respond 400 "validation failure" (PErrors errors)) \/
  (exists error, response = respond 500 "failure" (PText (error_message error))).

(** The controller call of each route, with its result as a payload. *)
Definition controller (r : route) (req : Request) : M Payload :=
  match r with
  | POST_users => user <- createUser (req_body req) ;; ret (PDocument user)
  | POST_tasks => task <- createTask (req_body req) ;; ret (PDocument task)
  | GET_tasks_by_user =>
      found <- getTasksByUser (toString (req_params req !! "userId")) ;;
      ret (PDocuments found)
  end.

(** What can happen to a running service: the event loop takes a turn, a
    request comes in, the store starts or stops answering, time passes. *)
Inductive event :=
| Turn
| Incoming (m : method) (url : string) (payload : Fields)
| Store (failure : option JsError)
| Clock (t : N).

Definition step (e : event) (w : world) : world :=
  match e with
  | Turn => snd (turn w)
  | Incoming m url payload => snd (serve m url payload w)
  | Store failure =>
      with_mongodb (fun db => {| fault := failure; collections := collections db |}) w
  | Clock t =>
      with_mongoose (fun m =>
        {| options := options m; connected := connected m; calls := calls m;
           next_id := next_id m; now := t |}) w
  end.

(** The states of a service started on an empty store. *)
Inductive reachable : world -> Prop :=
| reachable_main environment failure :
    reachable (snd (main (boot environment {| fault := failure; collections := ∅ |})))
| reachable_step e w :
    reachable w -> reachable (step e w).


Definition username (user : Document) : option value := user !! "username".


(** The error of a unique index that already holds the key. *)
Definition duplicate_key (collection index : string) : JsError :=
  mkError "MongoServerError"
    ("E11000 duplicate key error collection: " +:+ collection
     +:+ " index: " +:+ index +:+ "_1").



(** What a computation returned, if it returned. *)
Definition returned {A} (result : outcome A * world) : option A :=
  match fst result with
  | Returned a => Some a
  | Thrown _ => None
  end.

(** ** Scenarios *)

Definition scenario (events : list event) (w : world) : world :=
  fold_left (fun w' e => step e w') events w.

(** A service whose script has run and whose listen callback has not: it
    listens and has no connection. *)
Definition unconnected_service : world :=
  snd (main (boot {[ "MONGODB_URI" := "mongodb://localhost/lesson" ]}
                  {| fault := None; collections := ∅ |})).

(** What a computation raised, if it raised. *)
Definition raised {A} (result : outcome A * world) : option JsError :=
  match fst result with
  | Returned _ => None
  | Thrown error => Some error
  end.

(** A service started with a connection string on an empty store that
    answers, after the listen callback has run. *)
Definition connected_service : world :=
  scenario [Turn] unconnected_service.



(** One user, alice, with one task. *)
Definition alice_with_task : world :=
  scenario
    [ Incoming POST "/api/users" {[ "username" := "Alice" ]};
      Incoming POST "/api/tasks"
        {[ "title" := "water the plants";
           "user" := "000000000000000000000000" ]} ]
    connected_service.

(** No user, and one task created for an identifier no user has. *)
Definition orphan_task : world :=
  scenario
    [ Incoming POST "/api/tasks"
        {[ "title" := "water the plants";
           "user" := "00000000000000000000000f" ]} ]
    connected_service.

(** The world after [create] has noted its call and taken an identifier. *)
Definition create_entered (m : Model) (data : Fields) (w : world) : world :=
  with_mongoose (with_next_id (next_id (mongoose w) + 1))
    (with_mongoose (with_call (CallCreate (collection_name m) data)) w).

Definition new_document (m : Model) (fields : Document) (w : world) : Document :=
  <["_id" := VObjectId (next_id (mongoose w))]> (stamp (schema m) (now (mongoose w)) fields).

(** What the bootstrap owes its caller: it returns normally from every
    world, having tried to connect exactly once, and leaves the
    application, the store and the unhandled rejections as they were; the
    console gains one line, the success text when the connection opened and
    the error when it did not. *)
Definition captures_failure (bootstrap : M unit) : Prop :=
  forall w,
    let uri := env w !! "MONGODB_URI" in
    exists w',
      bootstrap w = (Returned tt, w') /\
      calls (mongoose w') = calls (mongoose w) ++ [CallConnect uri] /\
      app w' = app w /\
      unhandled w' = unhandled w /\
      mongodb w' = mongodb w /\
      match uri, fault (mongodb w) with
      | Some _, None =>
          connected (mongoose w') = true /\
          console w' = console w ++ [LogText "MONGODB CONNECTED"]
      | Some _, Some error =>
          connected (mongoose w') = connected (mongoose w) /\
          console w' = console w ++ [LogError error]
      | None, _ =>
          connected (mongoose w') = connected (mongoose w) /\
          exists error, console w' = console w ++ [LogError error]
      end.

Definition never_raises {A} (m : M A) : Prop :=
  forall w, exists a w', m w = (Returned a, w').




(** ** The routers before validation *)





(** ** Vocabulary of the further properties *)

(** A stored user as userSchema makes it: an identifier, a name that is not
    empty and in lower case, and the two timestamps, equal. *)
Definition user_conforms (user : Document) : Prop :=
  exists id s t,
    user !! "_id" = Some (VObjectId id) /\
    user !! "username" = Some (VString s) /\ s <> "" /\ toLowerCase s = s /\
    user !! "createdAt" = Some (VDate t) /\
    user !! "updatedAt" = Some (VDate t).

(** A stored task as taskSchema makes it: an identifier, a title that is
    not empty, the identifier of a user, and the two timestamps, equal. *)
Definition task_conforms (task : Document) : Prop :=
  exists id title owner t,
    task !! "_id" = Some (VObjectId id) /\
    task !! "title" = Some (VString title) /\ title <> "" /\
    task !! "user" = Some (VObjectId owner) /\
    task !! "createdAt" = Some (VDate t) /\
    task !! "updatedAt" = Some (VDate t).

(** How the collections of the store change in one step: not at all, or by
    one conforming user, or by one conforming task, added at the end. *)
Definition store_grows (db db' : MongoDB) : Prop :=
  collections db' = collections db \/
  (exists user,
     user_conforms user /\
     collections db' = <["users" := documents db "users" ++ [user]]> (collections db)) \/
  (exists task,
     task_conforms task /\
     collections db' = <["tasks" := documents db "tasks" ++ [task]]> (collections db)).

(** The store holds conforming users and tasks and nothing else. *)
Definition store_conforms (db : MongoDB) : Prop :=
  Forall user_conforms (documents db "users") /\
  Forall task_conforms (documents db "tasks") /\
  forall collection,
    collection <> "users" -> collection <> "tasks" -> documents db collection = [].






(** * Properties *)

(** ** The monad *)

Lemma try_rethrow {A} (m : M A) (w : world) :
  try_catch (x <- m ;; ret x) (fun error => throw error) w = m w.
Proof.
  unfold try_catch, bind, ret, throw.
  destruct (m w) as [[a | error] w']; reflexivity.
Qed.

Lemma createUser_create (data : Fields) (w : world) :
  createUser data w = create User data w.
Proof. apply try_rethrow. Qed.

Lemma createTask_create (data : Fields) (w : world) :
  createTask data w = create Task data w.
Proof. apply try_rethrow. Qed.

Lemma getTasksByUser_exec (userId : string) (w : world) :
  getTasksByUser userId w = exec (find Task {[ "user" := userId ]} |> populate "user") w.
Proof. apply try_rethrow. Qed.

(** ** The connection *)

Lemma mongoose_connect_run (uri : option string) (w : world) :
  mongoose_connect uri w =
  let w1 := with_mongoose (with_call (CallConnect uri)) w in
  match uri, fault (mongodb w) with
  | None, _ =>
      (Thrown (mkError "MongooseError"
                 "The uri parameter to openUri() must be a string, got undefined"), w1)
  | Some _, Some error => (Thrown error, w1)
  | Some _, None => (Returned tt, with_mongoose (with_connected true) w1)
  end.
Proof.
  unfold mongoose_connect, called, bind, modify, get, throw, with_mongoose.
  destruct uri; simpl; [destruct (fault (mongodb w)) |]; reflexivity.
Qed.

Lemma bare_captures_failure : captures_failure connectToMongoDB_bare.
Proof.
  intros w uri.
  unfold connectToMongoDB_bare, try_catch, bind at 1, get at 1.
  unfold bind at 1. rewrite mongoose_connect_run. fold uri. simpl.
  destruct uri as [u |]; [destruct (fault (mongodb w)) as [error |] |];
    simpl; eexists; repeat split; eauto.
Qed.

Lemma configured_captures_failure : captures_failure connectToMongoDB.
Proof.
  intros w uri.
  pose proof (bare_captures_failure
                (with_mongoose (with_options <["strictQuery" := false]>) w)) as H.
  simpl in H. destruct H as (w' & Hrun & H).
  exists w'. split; [| exact H].
  unfold connectToMongoDB, bind at 1, mongoose_set, modify. exact Hrun.
Qed.

(** C5: when the attempt to connect fails, the bootstrap catches the error
    and logs it, returns normally to its caller and leaves the process
    running: the application is untouched and the listen callback leaves no
    unhandled rejection.  When the attempt succeeds it logs the success
    text.  Either way the connection is attempted exactly once. *)
Theorem connectToMongoDB_captures_failure :
  captures_failure connectToMongoDB /\
  captures_failure connectToMongoDB_bare /\
  forall w,
    let w' := snd (run_callback listen_callback w) in
    unhandled w' = unhandled w /\ app w' = app w.
Proof.
  split; [apply configured_captures_failure |].
  split; [apply bare_captures_failure |].
  intros w.
  destruct (configured_captures_failure
              (with_console
                 (fun out =>
                    out ++ [LogText ("server is on port " +:+ pretty PORT +:+ "...")])
                 w))
    as (w1 & Hrun & _ & Happ & Hun & _).
  unfold run_callback, bind, console_log, modify, detached; simpl.
  rewrite Hrun; simpl. auto.
Qed.

(** C10: from every world, [connectToMongoDB] returns normally: the error
    of a failed connect is handled inside the function and never reaches
    the caller. *)
Theorem connectToMongoDB_never_raises :
  never_raises connectToMongoDB /\ never_raises connectToMongoDB_bare.
Proof.
  split; intros w.
  - destruct (configured_captures_failure w) as (w' & Hrun & _). eauto.
  - destruct (bare_captures_failure w) as (w' & Hrun & _). eauto.
Qed.

(** ** Running the model operations *)

Lemma command_run (operation : string) (w : world) :
  command operation w =
  if connected (mongoose w) then
    match fault (mongodb w) with
    | Some error => (Thrown error, w)
    | None => (Returned tt, w)
    end
  else
    (Thrown (mkError "MongooseError"
               ("Operation " +:+ operation +:+ " buffering timed out after 10000ms")), w).
Proof.
  unfold command, bind, get, throw, ret.
  destruct (connected (mongoose w)); [destruct (fault (mongodb w)) |]; reflexivity.
Qed.

Lemma create_run (m : Model) (data : Fields) (w : world) :
  create m data w =
  let w1 := create_entered m data w in
  let '(errors, fields) := cast_document (paths (schema m)) data in
  match errors with
  | _ :: _ =>
      (Thrown (mkError "ValidationError"
                 (modelName m +:+ " validation failed: " +:+ join ", " errors)), w1)
  | [] =>
      if connected (mongoose w) then
        match fault (mongodb w) with
        | Some error => (Thrown error, w1)
        | None =>
            let doc := new_document m fields w in
            match duplicate_keys (schema m) doc (documents (mongodb w) (collection_name m)) with
            | p :: _ =>
                (Thrown (mkError "MongoServerError"
                           ("E11000 duplicate key error collection: " +:+ collection_name m
                            +:+ " index: " +:+ p +:+ "_1")), w1)
            | [] =>
                (Returned doc, with_mongodb (insert_document (collection_name m) doc) w1)
            end
        end
      else
        (Thrown (mkError "MongooseError"
                   ("Operation " +:+ (collection_name m +:+ ".insertOne()")
                    +:+ " buffering timed out after 10000ms")), w1)
  end.
Proof.
  destruct w as [environment out [opts open made id t] [failure colls] a rejected].
  unfold create, create_entered, new_document, called, command, documents.
  cbv [bind get modify throw ret with_mongoose with_mongodb with_call with_next_id
       mongoose mongodb connected fault next_id now calls options collections].
  destruct (cast_document (paths (schema m)) data) as [[| reason errors] fields];
    [| reflexivity].
  destruct open; [| reflexivity].
  destruct failure; [reflexivity |].
  match goal with |- context [duplicate_keys ?s ?d ?l] => destruct (duplicate_keys s d l) end;
    reflexivity.
Qed.

Lemma exec_run (q : Query) (w : world) :
  exec q w =
  let m := q_model q in
  let w1 := with_mongoose
              (with_call (CallFind (collection_name m) (q_filter q) (q_populate q))) w in
  match cast_filter (schema m) (default false (options (mongoose w) !! "strictQuery"))
          (map_to_list (q_filter q)) with
  | inl reason =>
      (Thrown (mkError "CastError" (reason +:+ " for model " +:+ modelName m)), w1)
  | inr conds =>
      match List.find (fun p => bool_decide (schema_path (schema m) p ≫= ref = None))
                      (q_populate q) with
      | Some p =>
          (Thrown (mkError "StrictPopulateError"
                     ("Cannot populate path " +:+ p
                      +:+ " because it is not in your schema")), w1)
      | None =>
          if connected (mongoose w) then
            match fault (mongodb w) with
            | Some error => (Thrown error, w1)
            | None =>
                (Returned (populate_all (mongodb w) (schema m) (q_populate q)
                             <$> List.filter (matches conds)
                                   (documents (mongodb w) (collection_name m))), w1)
            end
          else
            (Thrown (mkError "MongooseError"
                       ("Operation " +:+ (collection_name m +:+ ".find()")
                        +:+ " buffering timed out after 10000ms")), w1)
      end
  end.
Proof.
  destruct w as [environment out [opts open made id t] [failure colls] a rejected].
  unfold exec, called, command, documents.
  cbv [bind get modify throw ret with_mongoose with_mongodb with_call
       mongoose mongodb connected fault next_id now calls options collections].
  match goal with |- context [cast_filter ?s ?b ?l] => destruct (cast_filter s b l) end;
    [reflexivity |].
  match goal with |- context [List.find ?f ?l] => destruct (List.find f l) end;
    [reflexivity |].
  destruct open; [| reflexivity].
  destruct failure; reflexivity.
Qed.

Lemma map_filter_ext {A B} (f g : A -> B) (P Q : A -> bool) (l : list A) :
  (forall x, P x = Q x) ->
  (forall x, Q x = true -> f x = g x) ->
  f <$> List.filter P l = g <$> List.filter Q l.
Proof.
  intros HPQ Hfg. induction l as [| x l IH]; [reflexivity |].
  cbn [List.filter]. rewrite HPQ. destruct (Q x) eqn:HQ; [| exact IH].
  rewrite !fmap_cons, IH, (Hfg x HQ). reflexivity.
Qed.

Lemma matches_user (id : ObjectId) (doc : Document) :
  matches [("user", VObjectId id)] doc = references id doc.
Proof.
  unfold matches, references; simpl.
  destruct (doc !! "user") as [[] |]; simpl; try reflexivity.
  apply andb_true_r.
Qed.

Lemma populate_user (db : MongoDB) (id : ObjectId) (task : Document) :
  references id task = true ->
  populate_all db taskSchema ["user"] task = <["user" := resolved db id]> task.
Proof.
  unfold references. intros H.
  destruct (task !! "user") as [[] |] eqn:Huser; try discriminate.
  apply bool_decide_eq_true in H. subst.
  unfold populate_all, populate_path; simpl. rewrite Huser. reflexivity.
Qed.

Lemma getTasksByUser_run (userId : string) (w : world) :
  getTasksByUser userId w =
  let w1 := with_mongoose
              (with_call (CallFind "tasks" {[ "user" := userId ]} ["user"])) w in
  match castObjectId userId with
  | None =>
      (Thrown (mkError "CastError"
                 "Cast to ObjectId failed at path user for model Task"), w1)
  | Some id =>
      if connected (mongoose w) then
        match fault (mongodb w) with
        | Some error => (Thrown error, w1)
        | None =>
            (Returned ((fun task => <["user" := resolved (mongodb w) id]> task)
                         <$> List.filter (references id) (tasks w)), w1)
        end
      else
        (Thrown (mkError "MongooseError"
                   "Operation tasks.find() buffering timed out after 10000ms"), w1)
  end.
Proof.
  rewrite getTasksByUser_exec, exec_run.
  change (q_filter (find Task {[ "user" := userId ]} |> populate "user"))
    with ({[ "user" := userId ]} : Fields).
  rewrite map_to_list_singleton.
  cbn [cast_filter cast_condition].
  simpl. destruct (castObjectId userId) as [id |]; [| reflexivity].
  destruct (connected (mongoose w)); [| reflexivity].
  destruct (fault (mongodb w)); [reflexivity |].
  f_equal. f_equal. apply map_filter_ext.
  - apply matches_user.
  - intros task. apply populate_user.
Qed.

(** ** Reachable worlds *)

Lemma reachable_scenario (events : list event) (w : world) :
  reachable w -> reachable (scenario events w).
Proof.
  revert w. induction events as [| e events IH]; intros w Hw; [exact Hw |].
  apply IH, reachable_step, Hw.
Qed.

Lemma reachable_connected_service : reachable connected_service.
Proof. apply reachable_scenario, reachable_main. Qed.

(** ** Tasks of a user *)

Lemma findById_Some (docs : list Document) (id : ObjectId) (doc : Document) :
  findById docs id = Some doc -> doc ∈ docs /\ doc !! "_id" = Some (VObjectId id).
Proof.
  unfold findById. intros H. apply find_some in H as [Hin Heq].
  split; [apply list_elem_of_In; exact Hin |].
  unfold index_key in Heq.
  destruct (doc !! "_id") as [[] |]; simpl in Heq; try discriminate.
  apply bool_decide_eq_true in Heq. congruence.
Qed.

Lemma findById_None (docs : list Document) (id : ObjectId) :
  findById docs id = None ->
  forall doc, doc ∈ docs -> doc !! "_id" <> Some (VObjectId id).
Proof.
  unfold findById. intros H doc Hin Hid.
  apply list_elem_of_In in Hin.
  pose proof (find_none _ _ H doc Hin) as Hne.
  unfold index_key in Hne. rewrite Hid in Hne. simpl in Hne.
  rewrite bool_decide_eq_false in Hne. congruence.
Qed.

(** C1, as the code has it: for every identifier and every world in which
    the store can be queried, [getTasksByUser] returns the stored tasks whose
    [user] field is that identifier, in their stored order, each with its
    [user] field replaced by the user document of that identifier when the
    store holds one and by null when it holds none; the store is left as it
    was, and when no task matches the result is the empty sequence. *)
Theorem getTasksByUser_populates (w : world) (userId : string) (id : ObjectId) :
  castObjectId userId = Some id ->
  available w ->
  exists w',
    getTasksByUser userId w =
      (Returned ((fun task => <["user" := resolved (mongodb w) id]> task)
                   <$> List.filter (references id) (tasks w)), w') /\
    mongodb w' = mongodb w /\
    match findById (users w) id with
    | Some user =>
        resolved (mongodb w) id = VDoc user /\
        user ∈ users w /\ user !! "_id" = Some (VObjectId id)
    | None =>
        resolved (mongodb w) id = VNull /\
        forall user, user ∈ users w -> user !! "_id" <> Some (VObjectId id)
    end /\
    (Forall (fun task => references id task = false) (tasks w) ->
     getTasksByUser userId w = (Returned [], w')).
Proof.
  intros Hid [Hopen Hup].
  rewrite getTasksByUser_run, Hid, Hopen, Hup. cbn zeta.
  eexists. split; [reflexivity |]. split; [reflexivity |]. split.
  - unfold resolved. fold (users w).
    destruct (findById (users w) id) as [user |] eqn:Hfind.
    + split; [reflexivity |]. eapply findById_Some; eauto.
    + split; [reflexivity |]. apply findById_None; assumption.
  - intros Hnone. f_equal. f_equal.
    induction Hnone as [| task rest Hno _ IH]; [reflexivity |].
    cbn [List.filter]. rewrite Hno. exact IH.
Qed.

Lemma getTasksByUser_populates_witness :
  castObjectId "000000000000000000000000" = Some 0 /\
  available alice_with_task /\
  (fun found : list Document =>
     (fun task : Document => (task !! "title", task !! "user")) <$> found)
    <$> returned (getTasksByUser "000000000000000000000000" alice_with_task)
  = Some [(Some (VString "water the plants"),
           Some (VDoc (new_document User (<["username" := VString "alice"]> ∅)
                         connected_service)))].
Proof.
  split; [vm_compute; reflexivity |].
  split; [split; vm_compute; reflexivity |].
  destruct (getTasksByUser_populates alice_with_task "000000000000000000000000" 0)
    as (w' & Hrun & _);
    [vm_compute; reflexivity | split; vm_compute; reflexivity |].
  rewrite Hrun. vm_compute; reflexivity.
Defined.

(** C1 fails as stated, in two ways.  The task created for an identifier
    that no user has comes back with null in its [user] field, not with a
    user document.  And while the store cannot be reached the function
    raises, also when no task matches. *)
Lemma getTasksByUser_orphan_task :
  (castObjectId "00000000000000000000000f" = Some 15 /\
   available orphan_task /\
   reachable orphan_task /\
   (fun found : list Document =>
      (fun task : Document => (task !! "title", task !! "user")) <$> found)
     <$> returned (getTasksByUser "00000000000000000000000f" orphan_task)
   = Some [(Some (VString "water the plants"), Some VNull)]) /\
  (reachable unconnected_service /\
   tasks unconnected_service = [] /\
   raised (getTasksByUser "00000000000000000000000f" unconnected_service)
   = Some (mkError "MongooseError"
             "Operation tasks.find() buffering timed out after 10000ms")).
Proof.
  split.
  - split; [vm_compute; reflexivity |].
    split; [split; vm_compute; reflexivity |].
    split; [apply reachable_scenario, reachable_connected_service |].
    vm_compute; reflexivity.
  - split; [apply reachable_main |].
    split; vm_compute; reflexivity.
Qed.

(** ** Controllers and the persistence layer *)

(** C6: whatever error [User.create] or [Task.create] raises, [createUser]
    and [createTask] raise that same error, from the same world; and when
    the persistence layer returns the created record, so do they. *)
Theorem controllers_propagate (data : Fields) (w w' : world) :
  (forall error,
     create User data w = (Thrown error, w') ->
     createUser data w = (Thrown error, w')) /\
  (forall record,
     create User data w = (Returned record, w') ->
     createUser data w = (Returned record, w')) /\
  (forall error,
     create Task data w = (Thrown error, w') ->
     createTask data w = (Thrown error, w')) /\
  (forall record,
     create Task data w = (Returned record, w') ->
     createTask data w = (Returned record, w')).
Proof.
  rewrite <- createUser_create, <- createTask_create. auto.
Qed.

(** A uniqueness violation and an unreachable store, each reaching the
    caller of the controller as the persistence layer raised it. *)
Lemma controllers_propagate_witness :
  let duplicate :=
    mkError "MongoServerError"
      "E11000 duplicate key error collection: users index: username_1" in
  let unreachable :=
    mkError "MongooseError"
      "Operation tasks.insertOne() buffering timed out after 10000ms" in
  let data := {[ "username" := "ALICE" ]} : Fields in
  let task := {[ "title" := "sweep"; "user" := "000000000000000000000000" ]} : Fields in
  let off := unconnected_service in
  createUser data alice_with_task
    = (Thrown duplicate, snd (create User data alice_with_task)) /\
  createTask task off = (Thrown unreachable, snd (create Task task off)).
Proof.
  intros duplicate unreachable data task off. split.
  - destruct (controllers_propagate data alice_with_task
                (snd (create User data alice_with_task))) as (Hthrown & _).
    apply Hthrown. vm_compute; reflexivity.
  - destruct (controllers_propagate task off (snd (create Task task off)))
      as (_ & _ & Hthrown & _).
    apply Hthrown. vm_compute; reflexivity.
Defined.

(** ** Responses *)

Lemma handle_run (r : route) (req : Request) (w : world) :
  handle r req w =
  match validationResult (chains r) req with
  | _ :: _ =>
      (Returned (respond 400 "validation failure"
                   (PErrors (validationResult (chains r) req))), w)
  | [] =>
      match controller r req w with
      | (Returned entity, w') => (Returned (respond 200 "success" entity), w')
      | (Thrown error, w') =>
          (Returned (respond 500 "failure" (PText (error_message error))), w')
      end
  end.
Proof.
  destruct r; cbn [handle chains controller].
  - unfold usersRouter_post.
    destruct (validationResult usersRouter_post_chains req); [| reflexivity].
    unfold try_catch, bind, ret; simpl.
    destruct (createUser (req_body req) w) as [[user | error] w']; reflexivity.
  - unfold tasksRouter_post.
    destruct (validationResult tasksRouter_post_chains req); [| reflexivity].
    unfold try_catch, bind, ret; simpl.
    destruct (createTask (req_body req) w) as [[task | error] w']; reflexivity.
  - unfold tasksRouter_get.
    destruct (validationResult tasksRouter_get_chains req); [| reflexivity].
    unfold try_catch, bind, ret; simpl.
    destruct (getTasksByUser (toString (req_params req !! "userId")) w)
      as [[found | error] w']; reflexivity.
Qed.

(** C7: on every route, for every request and from every world, the handler
    answers with a status and a two-field envelope, and only in three ways:
    400 with "validation failure" and the list of rule violations when a
    rule is violated; otherwise 200 with "success" and what the controller
    returned, or 500 with "failure" and the message of the error the
    controller raised. *)
Theorem responses_are_envelopes (r : route) (req : Request) (w : world) :
  handle r req w =
    match validationResult (chains r) req with
    | _ :: _ =>
        (Returned (respond 400 "validation failure"
                     (PErrors (validationResult (chains r) req))), w)
    | [] =>
        match controller r req w with
        | (Returned entity, w') => (Returned (respond 200 "success" entity), w')
        | (Thrown error, w') =>
            (Returned (respond 500 "failure" (PText (error_message error))), w')
        end
    end /\
  exists response w',
    handle r req w = (Returned response, w') /\
    enveloped response /\
    (statusCode response = 200 \/ statusCode response = 400 \/
     statusCode response = 500).
Proof.
  split; [apply handle_run |].
  rewrite handle_run.
  destruct (validationResult (chains r) req) as [| e errors] eqn:Herrors.
  - destruct (controller r req w) as [[entity | error] w'] eqn:Hrun.
    + eexists _, _. split; [reflexivity |]. split; [| simpl; auto].
      destruct r; unfold controller, bind, ret in Hrun;
        [ destruct (createUser (req_body req) w) as [[? | ?] ?]
        | destruct (createTask (req_body req) w) as [[? | ?] ?]
        | destruct (getTasksByUser (toString (req_params req !! "userId")) w)
            as [[? | ?] ?] ];
        inversion Hrun; subst; unfold enveloped; eauto.
    + eexists _, _. split; [reflexivity |]. split; [| simpl; auto].
      unfold enveloped; eauto 6.
  - eexists _, _. split; [reflexivity |]. split; [| simpl; auto].
    unfold enveloped; eauto 6.
Qed.

(** ** Validation *)

Lemma all_hex_spec (s : string) :
  all_hex s = true <-> forall c, c ∈ list_ascii_of_string s -> is_Some (hex_digit c).
Proof.
  induction s as [| a s IH]; simpl.
  - split; [intros _ c Hc; inversion Hc | reflexivity].
  - rewrite andb_true_iff, bool_decide_eq_true, IH. split.
    + intros [Ha Hs] c Hc. apply elem_of_cons in Hc as [-> | Hc]; auto.
    + intros H. split; [apply H; left | intros c Hc; apply H; right; exact Hc].
Qed.



Lemma castObjectId_spec (s : string) (id : ObjectId) :
  castObjectId s = Some id <-> well_formed_id s /\ id = parse_hex 0 s.
Proof.
  unfold castObjectId, well_formed_id. rewrite <- all_hex_spec.
  case_bool_decide as Hlen; destruct (all_hex s); simpl.
  - split.
    + intros [= <-]. auto.
    + intros [_ ->]. reflexivity.
  - split; [discriminate | intros [[_ Hhex] _]; discriminate].
  - split; [discriminate | intros [[Hlen' _] _]; contradiction].
  - split; [discriminate | intros [[Hlen' _] _]; contradiction].
Qed.


Lemma isEmpty_missing (v : option string) :
  validator.isEmpty (toString v) = true <-> missing_or_empty v.
Proof.
  unfold validator.isEmpty, missing_or_empty. rewrite bool_decide_eq_true.
  destruct v as [s |]; simpl; split; intros H; auto.
  - subst; auto.
  - destruct H as [H | H]; congruence.
Qed.











(** ** What a controller leaves behind *)



Lemma snd_bind_ret {A B} (m : M A) (f : A -> B) (w : world) :
  snd ((x <- m ;; ret (f x)) w) = snd (m w).
Proof. unfold bind, ret. destruct (m w) as [[a | error] w']; reflexivity. Qed.




(** ** Creating a task *)




Lemma documents_insert (db : MongoDB) (collection : string) (doc : Document) :
  documents (insert_document collection doc db) collection =
  documents db collection ++ [doc].
Proof. unfold documents at 1, insert_document; simpl. rewrite lookup_insert_eq. reflexivity. Qed.

Lemma documents_insert_other (db : MongoDB) (collection other : string) (doc : Document) :
  collection <> other ->
  documents (insert_document collection doc db) other = documents db other.
Proof.
  intros Hne. unfold documents at 1, insert_document; simpl.
  rewrite lookup_insert_ne by exact Hne. reflexivity.
Qed.

Lemma new_task_user (w : world) (title : string) (id : ObjectId) :
  new_document Task (<["title" := VString title]> (<["user" := VObjectId id]> ∅)) w
    !! "user" = Some (VObjectId id).
Proof.
  unfold new_document, stamp; simpl.
  rewrite !lookup_insert_ne by discriminate. apply lookup_insert_eq.
Qed.



(** ** Usernames *)

Lemma lower_ascii_idempotent (c : ascii) : lower_ascii (lower_ascii c) = lower_ascii c.
Proof. destruct c as [[] [] [] [] [] [] [] []]; vm_compute; reflexivity. Qed.

Lemma toLowerCase_idempotent (s : string) : toLowerCase (toLowerCase s) = toLowerCase s.
Proof.
  induction s as [| c s IH]; [reflexivity |].
  simpl. rewrite lower_ascii_idempotent, IH. reflexivity.
Qed.

Lemma cast_user (data : Fields) :
  cast_document (paths userSchema) data =
  match data !! "username" with
  | Some name =>
      if validator.isEmpty (toLowerCase name)
      then (["username: Path username is required."], ∅)
      else ([], <["username" := VString (toLowerCase name)]> ∅)
  | None => (["username: Path username is required."], ∅)
  end.
Proof.
  cbn [cast_document paths userSchema].
  destruct (data !! "username") as [name |]; [| reflexivity].
  cbn [cast_path type required lowercase andb].
  destruct (validator.isEmpty (toLowerCase name)); reflexivity.
Qed.

Lemma new_user_username (w : world) (s : string) :
  username (new_document User (<["username" := VString s]> ∅) w) = Some (VString s).
Proof.
  unfold username, new_document, stamp; simpl.
  rewrite !lookup_insert_ne by discriminate. apply lookup_insert_eq.
Qed.


(** The unique index on [username] finds a collision exactly when a stored
    user has that name. *)
Lemma duplicate_username (w : world) (s : string) (docs : list Document) :
  duplicate_keys userSchema (new_document User (<["username" := VString s]> ∅) w) docs =
  if existsb (fun d => value_eqb (index_key "username" d) (VString s)) docs
  then ["username"] else [].
Proof.
  unfold duplicate_keys.
  cbn [unique_paths userSchema paths List.filter fmap list_fmap fst snd unique].
  unfold index_key at 2. fold (username (new_document User (<["username" := VString s]> ∅) w)).
  rewrite new_user_username. reflexivity.
Qed.

(** What [createUser] does, case by case. *)
Lemma createUser_run (data : Fields) (w : world) :
  createUser data w =
  let w1 := create_entered User data w in
  let invalid :=
    (Thrown (mkError "ValidationError"
               "User validation failed: username: Path username is required."), w1) in
  match data !! "username" with
  | None => invalid
  | Some name =>
      if validator.isEmpty (toLowerCase name) then invalid
      else if connected (mongoose w) then
        match fault (mongodb w) with
        | Some error => (Thrown error, w1)
        | None =>
            let user :=
              new_document User (<["username" := VString (toLowerCase name)]> ∅) w in
            if existsb (fun d => value_eqb (index_key "username" d)
                                   (VString (toLowerCase name))) (users w)
            then (Thrown (duplicate_key "users" "username"), w1)
            else (Returned user, with_mongodb (insert_document "users" user) w1)
        end
      else
        (Thrown (mkError "MongooseError"
                   "Operation users.insertOne() buffering timed out after 10000ms"), w1)
  end.
Proof.
  rewrite createUser_create, create_run. cbn zeta.
  change (schema User) with userSchema. rewrite cast_user.
  destruct (data !! "username") as [name |]; [| reflexivity].
  destruct (validator.isEmpty (toLowerCase name)); [reflexivity |].
  destruct (connected (mongoose w)); [| reflexivity].
  destruct (fault (mongodb w)); [reflexivity |].
  rewrite duplicate_username. change (collection_name User) with "users".
  fold (users w).
  destruct (existsb _ (users w)); reflexivity.
Qed.

(** ** What each step does to the users *)

Lemma create_entered_mongodb (m : Model) (data : Fields) (w : world) :
  mongodb (create_entered m data w) = mongodb w.
Proof. reflexivity. Qed.



Lemma getTasksByUser_mongodb (userId : string) (w : world) :
  mongodb (snd (getTasksByUser userId w)) = mongodb w.
Proof.
  rewrite getTasksByUser_run. cbn zeta.
  destruct (castObjectId userId); [| reflexivity].
  destruct (connected (mongoose w)); [| reflexivity].
  destruct (fault (mongodb w)); reflexivity.
Qed.


Lemma turn_mongodb (w : world) : mongodb (snd (turn w)) = mongodb w.
Proof.
  unfold turn, bind at 1, get.
  destruct (pending (app w)) as [| [] rest]; [reflexivity |].
  unfold bind at 1, modify.
  unfold run_callback, bind, console_log, modify, detached.
  match goal with |- context [connectToMongoDB ?w0] =>
    destruct (configured_captures_failure w0) as (w' & Hrun & _ & _ & _ & Hdb & _);
    rewrite Hrun; cbn [snd]; rewrite Hdb end.
  reflexivity.
Qed.




Lemma main_run (w : world) :
  exists w',
    main w = (Returned tt, w') /\
    env w' = env w /\ console w' = console w /\ mongoose w' = mongoose w /\
    mongodb w' = mongodb w /\ unhandled w' = unhandled w /\
    stack (app w') =
      stack (app w) ++
      [express_json; logger "dev";
       mount "/api/users" userRouter; mount "/api/tasks" taskRouter] /\
    listening (app w') = Some PORT /\
    pending (app w') = pending (app w) ++ [listen_callback].
Proof.
  eexists. split; [reflexivity |]. simpl.
  repeat split; try reflexivity.
  rewrite <- !app_assoc. reflexivity.
Qed.




Lemma reachable_alice_with_task : reachable alice_with_task.
Proof. apply reachable_scenario, reachable_connected_service. Qed.



(** ** Routing *)










(** ** Start-up *)



(** index.js as it stands mounts no router: its layers are the two global
    middleware, and the routers come with the lines of step 5. *)
Lemma index_js_alone (environment : Fields) (store : MongoDB) :
  stack (app (snd (index_js (boot environment store)))) = [express_json; logger "dev"].
Proof. reflexivity. Qed.

(** *** The application stays wired *)

Lemma create_app (m : Model) (data : Fields) (w : world) :
  app (snd (create m data w)) = app w.
Proof.
  rewrite create_run. cbn zeta.
  destruct (cast_document _ data) as [[| reason errors] fields]; [| reflexivity].
  destruct (connected (mongoose w)); [| reflexivity].
  destruct (fault (mongodb w)); [reflexivity |].
  destruct (duplicate_keys _ _ _); reflexivity.
Qed.

Lemma exec_app (q : Query) (w : world) : app (snd (exec q w)) = app w.
Proof.
  rewrite exec_run. cbn zeta.
  destruct (cast_filter _ _ _); [reflexivity |].
  destruct (List.find _ _); [reflexivity |].
  destruct (connected (mongoose w)); [| reflexivity].
  destruct (fault (mongodb w)); reflexivity.
Qed.

Lemma handle_app (r : route) (req : Request) (w : world) :
  app (snd (handle r req w)) = app w.
Proof.
  rewrite handle_run.
  destruct (validationResult (chains r) req); [| reflexivity].
  assert (app (snd (controller r req w)) = app w) as Happ.
  { destruct r; unfold controller; rewrite snd_bind_ret.
    - rewrite createUser_create. apply create_app.
    - rewrite createTask_create. apply create_app.
    - rewrite getTasksByUser_exec. apply exec_app. }
  destruct (controller r req w) as [[entity | error] w']; exact Happ.
Qed.

Lemma through_app (layers : list layer) (m : method) (url : string)
    (payload : Fields) (parsed : bool) (w : world) :
  app (snd (through layers m url payload parsed w)) = app w.
Proof.
  revert parsed. induction layers as [| [| format | prefix r] layers IH]; intros parsed;
    cbn [through].
  - reflexivity.
  - apply IH.
  - specialize (IH parsed). unfold bind, console_log, modify, ret.
    destruct (through layers m url payload parsed w) as [[response | error] w'];
      exact IH.
  - destruct (strip_prefix _ _ ≫= find_route (routes r) m) as [[matched bound] |].
    + apply handle_app.
    + apply IH.
Qed.

Lemma serve_app (m : method) (url : string) (payload : Fields) (w : world) :
  app (snd (serve m url payload w)) = app w.
Proof.
  unfold serve, bind at 1, get.
  destruct (listening (app w)); [| reflexivity].
  pose proof (through_app (stack (app w)) m url payload false w) as Happ.
  unfold bind, ret.
  destruct (through (stack (app w)) m url payload false w) as [[response | error] w'];
    exact Happ.
Qed.






(** * Further properties *)

(** ** What the schemas let through *)


Lemma cast_task_run (data : Fields) :
  cast_document (paths taskSchema) data =
  let '(owner_errors, owner) :=
    match data !! "user" with
    | None => (["user: Path user is required."], ∅)
    | Some s =>
        match castObjectId s with
        | Some id => ([], <["user" := VObjectId id]> ∅)
        | None => (["user: Cast to ObjectId failed at path user"], ∅)
        end
    end in
  match data !! "title" with
  | None => ("title: Path title is required." :: owner_errors, owner)
  | Some title =>
      if validator.isEmpty title
      then ("title: Path title is required." :: owner_errors, owner)
      else (owner_errors, <["title" := VString title]> owner)
  end.
Proof.
  cbn [cast_document paths taskSchema].
  destruct (data !! "user") as [s |], (data !! "title") as [title |];
    cbn [cast_path type required lowercase andb];
    try destruct (castObjectId s); try destruct (validator.isEmpty title);
    reflexivity.
Qed.

(** The record a task is made from passes the schema exactly when it has
    a title that is not empty and a user that casts to an identifier. *)
Lemma cast_task_cases (data : Fields) :
  (exists title user id,
     data !! "title" = Some title /\ title <> "" /\
     data !! "user" = Some user /\ castObjectId user = Some id /\
     cast_document (paths taskSchema) data =
       ([], <["title" := VString title]> (<["user" := VObjectId id]> ∅))) \/
  ((missing_or_empty (data !! "title") \/ not_an_id (data !! "user")) /\
   exists reason reasons fields,
     cast_document (paths taskSchema) data = (reason :: reasons, fields)).
Proof.
  rewrite cast_task_run.
  pose proof (isEmpty_missing (data !! "title")) as Hm.
  destruct (data !! "user") as [s |] eqn:Huser.
  - destruct (castObjectId s) as [id |] eqn:Hid.
    + destruct (data !! "title") as [title |] eqn:Htitle.
      * simpl in Hm. destruct (validator.isEmpty title) eqn:Hempty.
        -- right. split; [left; apply Hm; reflexivity | eauto].
        -- left. exists title, s, id. repeat split; auto.
           intros ->. discriminate.
      * right. split; [left; left; reflexivity | eauto].
    + right. split.
      * right. intros s' [= <-] Hwf.
        assert (castObjectId s = Some (parse_hex 0 s)) by (apply castObjectId_spec; auto).
        congruence.
      * destruct (data !! "title") as [title |]; [| eauto].
        destruct (validator.isEmpty title); eauto.
  - right. split; [right; intros s [=] |].
    destruct (data !! "title") as [title |]; [| eauto].
    destruct (validator.isEmpty title); eauto.
Qed.

(** What [createTask] does, case by case. *)
Lemma createTask_run (data : Fields) (w : world) :
  createTask data w =
  let w1 := create_entered Task data w in
  let '(errors, fields) := cast_document (paths taskSchema) data in
  match errors with
  | _ :: _ =>
      (Thrown (mkError "ValidationError"
                 ("Task validation failed: " +:+ join ", " errors)), w1)
  | [] =>
      if connected (mongoose w) then
        match fault (mongodb w) with
        | Some error => (Thrown error, w1)
        | None =>
            let task := new_document Task fields w in
            (Returned task, with_mongodb (insert_document "tasks" task) w1)
        end
      else
        (Thrown (mkError "MongooseError"
                   "Operation tasks.insertOne() buffering timed out after 10000ms"), w1)
  end.
Proof.
  rewrite createTask_create, create_run. cbn zeta.
  change (schema Task) with taskSchema.
  destruct (cast_document (paths taskSchema) data) as [[| reason errors] fields];
    [| reflexivity].
  destruct (connected (mongoose w)); [| reflexivity].
  destruct (fault (mongodb w)); reflexivity.
Qed.

Lemma new_user_conforms (w : world) (s : string) :
  s <> "" -> toLowerCase s = s ->
  user_conforms (new_document User (<["username" := VString s]> ∅) w).
Proof.
  intros Hfull Hlow.
  exists (next_id (mongoose w)), s, (now (mongoose w)).
  unfold new_document, stamp; simpl.
  repeat split; auto;
    repeat first [ apply lookup_insert_eq | rewrite lookup_insert_ne by discriminate ].
Qed.

Lemma new_task_conforms (w : world) (title : string) (owner : ObjectId) :
  title <> "" ->
  task_conforms
    (new_document Task (<["title" := VString title]> (<["user" := VObjectId owner]> ∅)) w).
Proof.
  intros Hfull.
  exists (next_id (mongoose w)), title, owner, (now (mongoose w)).
  unfold new_document, stamp; simpl.
  repeat split; auto;
    repeat first [ apply lookup_insert_eq | rewrite lookup_insert_ne by discriminate ].
Qed.

Lemma store_grows_same (db db' : MongoDB) :
  collections db' = collections db -> store_grows db db'.
Proof. intros H. left. exact H. Qed.

Lemma createUser_store (data : Fields) (w : world) :
  store_grows (mongodb w) (mongodb (snd (createUser data w))).
Proof.
  rewrite createUser_run. cbn zeta.
  destruct (data !! "username") as [name |]; [| left; reflexivity].
  destruct (validator.isEmpty (toLowerCase name)) eqn:Hempty; [left; reflexivity |].
  destruct (connected (mongoose w)); [| left; reflexivity].
  destruct (fault (mongodb w)); [left; reflexivity |].
  destruct (existsb _ (users w)); [left; reflexivity |].
  right. left. eexists. split; [| reflexivity].
  apply new_user_conforms; [| apply toLowerCase_idempotent].
  unfold validator.isEmpty in Hempty. apply bool_decide_eq_false in Hempty. exact Hempty.
Qed.

Lemma createTask_store (data : Fields) (w : world) :
  store_grows (mongodb w) (mongodb (snd (createTask data w))).
Proof.
  rewrite createTask_run. cbn zeta.
  destruct (cast_task_cases data)
    as [(title & user & id & _ & Hfull & _ & _ & ->) | (_ & reason & reasons & fields & ->)];
    [| left; reflexivity].
  destruct (connected (mongoose w)); [| left; reflexivity].
  destruct (fault (mongodb w)); [left; reflexivity |].
  right. right. eexists. split; [| reflexivity].
  apply new_task_conforms. exact Hfull.
Qed.

Lemma handle_store (r : route) (req : Request) (w : world) :
  store_grows (mongodb w) (mongodb (snd (handle r req w))).
Proof.
  rewrite handle_run.
  destruct (validationResult (chains r) req); [| left; reflexivity].
  assert (store_grows (mongodb w) (mongodb (snd (controller r req w)))) as Hgrow.
  { destruct r; unfold controller; rewrite snd_bind_ret.
    - apply createUser_store.
    - apply createTask_store.
    - left. rewrite getTasksByUser_mongodb. reflexivity. }
  destruct (controller r req w) as [[entity | error] w']; exact Hgrow.
Qed.

Lemma through_store (layers : list layer) (m : method) (url : string)
    (payload : Fields) (parsed : bool) (w : world) :
  store_grows (mongodb w) (mongodb (snd (through layers m url payload parsed w))).
Proof.
  revert parsed. induction layers as [| [| format | prefix r] layers IH]; intros parsed;
    cbn [through].
  - left. reflexivity.
  - apply IH.
  - specialize (IH parsed). unfold bind, console_log, modify, ret.
    destruct (through layers m url payload parsed w) as [[response | error] w'];
      exact IH.
  - destruct (strip_prefix _ _ ≫= find_route (routes r) m) as [[matched bound] |].
    + apply handle_store.
    + apply IH.
Qed.

Lemma serve_store (m : method) (url : string) (payload : Fields) (w : world) :
  store_grows (mongodb w) (mongodb (snd (serve m url payload w))).
Proof.
  unfold serve, bind at 1, get.
  destruct (listening (app w)); [| left; reflexivity].
  pose proof (through_store (stack (app w)) m url payload false w) as Hgrow.
  unfold bind, ret.
  destruct (through (stack (app w)) m url payload false w) as [[response | error] w'];
    exact Hgrow.
Qed.

Lemma step_store (e : event) (w : world) :
  store_grows (mongodb w) (mongodb (step e w)).
Proof.
  destruct e; cbn [step].
  - left. rewrite turn_mongodb. reflexivity.
  - apply serve_store.
  - left. reflexivity.
  - left. reflexivity.
Qed.

(** ** The store only grows, and by conforming documents *)

Lemma store_grows_prefix (db db' : MongoDB) (collection : string) :
  store_grows db db' ->
  documents db collection `prefix_of` documents db' collection.
Proof.
  unfold documents at 2.
  intros [-> | [(user & _ & ->) | (task & _ & ->)]].
  - reflexivity.
  - destruct (decide (collection = "users")) as [-> | Hne].
    + rewrite lookup_insert_eq. simpl. apply prefix_app_r. reflexivity.
    + rewrite lookup_insert_ne by congruence. reflexivity.
  - destruct (decide (collection = "tasks")) as [-> | Hne].
    + rewrite lookup_insert_eq. simpl. apply prefix_app_r. reflexivity.
    + rewrite lookup_insert_ne by congruence. reflexivity.
Qed.

(** X3: whatever happens to the service, in any state, every collection of
    the store keeps the documents it had, in their order: a document is
    never removed, replaced or moved, new ones are added at the end. *)
Theorem documents_are_kept (events : list event) (w : world) (collection : string) :
  documents (mongodb w) collection
    `prefix_of` documents (mongodb (scenario events w)) collection.
Proof.
  revert w. induction events as [| e events IH]; intros w; [reflexivity |].
  change (scenario (e :: events) w) with (scenario events (step e w)).
  etransitivity; [| apply IH].
  apply store_grows_prefix, step_store.
Qed.

Lemma documents_same (db db' : MongoDB) (collection : string) :
  collections db' = collections db ->
  documents db' collection = documents db collection.
Proof. unfold documents. intros ->. reflexivity. Qed.

Lemma documents_grown (db db' : MongoDB) (collection : string) (docs : list Document) :
  collections db' = <[collection := docs]> (collections db) ->
  documents db' collection = docs /\
  forall other, other <> collection -> documents db' other = documents db other.
Proof.
  unfold documents. intros ->. split.
  - rewrite lookup_insert_eq. reflexivity.
  - intros other Hne. rewrite lookup_insert_ne by congruence. reflexivity.
Qed.

Lemma store_grows_conforms (db db' : MongoDB) :
  store_grows db db' -> store_conforms db -> store_conforms db'.
Proof.
  unfold store_conforms.
  intros [Hsame | [(user & Huser & Hgrown) | (task & Htask & Hgrown)]]
    (Husers & Htasks & Hother).
  - rewrite !(documents_same db db' _ Hsame).
    split; [exact Husers |]. split; [exact Htasks |].
    intros collection Hu Ht. rewrite (documents_same db db' _ Hsame). auto.
  - destruct (documents_grown _ _ _ _ Hgrown) as [Hnew Hrest].
    rewrite Hnew, (Hrest "tasks") by discriminate.
    split; [apply Forall_app; auto |]. split; [exact Htasks |].
    intros collection Hu Ht. rewrite Hrest by exact Hu. auto.
  - destruct (documents_grown _ _ _ _ Hgrown) as [Hnew Hrest].
    rewrite Hnew, (Hrest "users") by discriminate.
    split; [exact Husers |]. split; [apply Forall_app; auto |].
    intros collection Hu Ht. rewrite Hrest by exact Ht. auto.
Qed.

(** X2: in every state the service reaches from an empty store, each stored
    user has an identifier, a username that is not empty and in lower case
    and two equal timestamps; each stored task has an identifier, a title
    that is not empty, the identifier of a user and two equal timestamps;
    and the store has no other collection. *)
Theorem stored_documents_conform (w : world) :
  reachable w ->
  Forall user_conforms (users w) /\
  Forall task_conforms (tasks w) /\
  forall collection,
    collection <> "users" -> collection <> "tasks" ->
    documents (mongodb w) collection = [].
Proof.
  induction 1 as [environment failure | e w Hw IH].
  - destruct (main_run (boot environment {| fault := failure; collections := ∅ |}))
      as (w' & Hrun & _ & _ & _ & Hdb & _).
    rewrite Hrun. unfold users, tasks. simpl. rewrite Hdb.
    unfold documents; simpl. rewrite !lookup_empty. simpl.
    split; [constructor |]. split; [constructor |].
    intros collection _ _. rewrite lookup_empty. reflexivity.
  - exact (store_grows_conforms _ _ (step_store e w) IH).
Qed.

Lemma stored_documents_conform_witness :
  reachable alice_with_task /\
  Forall user_conforms (users alice_with_task) /\
  Forall task_conforms (tasks alice_with_task).
Proof.
  split; [exact reachable_alice_with_task |].
  destruct (stored_documents_conform alice_with_task reachable_alice_with_task)
    as (Husers & Htasks & _).
  split; [exact Husers | exact Htasks].
Defined.

(** ** Records the schemas refuse *)





(** ** Creating a user *)





(** ** Creating a task and finding it *)

(** X4: once [createTask] has returned a task, [getTasksByUser] finds it:
    for the identifier the task was created with, in any spelling, the
    result is what it was before followed by the new task, populated; for
    every other identifier the result is what it was before. *)
Theorem created_task_is_found
    (data : Fields) (task : Document) (w w1 : world) (userId : string) (id : ObjectId) :
  createTask data w = (Returned task, w1) ->
  castObjectId userId = Some id ->
  exists user owner before,
    data !! "user" = Some user /\
    castObjectId user = Some owner /\
    returned (getTasksByUser userId w) = Some before /\
    returned (getTasksByUser userId w1) =
      Some (before ++
            if bool_decide (owner = id)
            then [<["user" := resolved (mongodb w) id]> task]
            else []).
Proof.
  rewrite createTask_run. cbn zeta.
  destruct (cast_task_cases data)
    as [(title & user & owner & _ & _ & Huser & Howner & ->)
       | (_ & reason & reasons & fields & ->)]; [| discriminate].
  destruct (connected (mongoose w)) eqn:Hopen; [| discriminate].
  destruct (fault (mongodb w)) eqn:Hup; [discriminate |].
  intros [= <- <-] Hid.
  exists user, owner. eexists. split; [exact Huser |]. split; [exact Howner |].
  unfold returned. rewrite !getTasksByUser_run, Hid. cbn zeta.
  change (connected (mongoose (with_mongodb _ _))) with (connected (mongoose w)).
  change (fault (mongodb (with_mongodb _ (create_entered Task data w))))
    with (fault (mongodb w)).
  rewrite Hopen, Hup. cbn [fst].
  split; [reflexivity |]. f_equal.
  unfold tasks, resolved; simpl.
  rewrite documents_insert, documents_insert_other by discriminate.
  rewrite List.filter_app, fmap_app. f_equal.
  cbn [List.filter]. unfold references. rewrite new_task_user.
  destruct (bool_decide (owner = id)); reflexivity.
Qed.

Lemma created_task_is_found_witness :
  let data := {[ "title" := "sweep"; "user" := "000000000000000000000000" ]} : Fields in
  length <$> returned (getTasksByUser "000000000000000000000000" alice_with_task)
    = Some 1%nat /\
  length <$> returned (getTasksByUser "000000000000000000000000"
                         (snd (createTask data alice_with_task)))
    = Some 2%nat.
Proof.
  intros data.
  destruct (created_task_is_found data
              (new_document Task
                 (<["title" := VString "sweep"]> (<["user" := VObjectId 0]> ∅))
                 alice_with_task)
              alice_with_task (snd (createTask data alice_with_task))
              "000000000000000000000000" 0)
    as (user & owner & before & Huser & Howner & Hbefore & Hafter).
  - vm_compute; reflexivity.
  - vm_compute; reflexivity.
  - assert (length <$> returned (getTasksByUser "000000000000000000000000" alice_with_task)
            = Some 1%nat) as Hone by (vm_compute; reflexivity).
    split; [exact Hone |].
    assert (user = "000000000000000000000000") as ->
      by (vm_compute in Huser; congruence).
    assert (owner = 0) as -> by (vm_compute in Howner; congruence).
    rewrite Hafter. rewrite Hbefore in Hone. simpl in Hone. injection Hone as Hone.
    simpl. rewrite length_app, Hone. reflexivity.
Defined.

(** ** Reading *)

Lemma find_route_get (r : router) (path : list string) (matched : route) (bound : Fields) :
  find_route (routes r) GET path = Some (matched, bound) ->
  matched = GET_tasks_by_user.
Proof.
  destruct r; cbn [routes find_route method_eqb]; [discriminate |].
  destruct (match_pattern _ path ∅); [| discriminate].
  intros [= <- _]. reflexivity.
Qed.

Lemma handle_get_frame (req : Request) (w : world) :
  mongodb (snd (handle GET_tasks_by_user req w)) = mongodb w.
Proof.
  rewrite handle_run.
  destruct (validationResult (chains GET_tasks_by_user) req); [| reflexivity].
  pose proof (getTasksByUser_mongodb (toString (req_params req !! "userId")) w) as Hdb.
  unfold controller, bind, ret.
  destruct (getTasksByUser _ w) as [[found | error] w']; exact Hdb.
Qed.

Lemma through_get_frame (layers : list layer) (url : string)
    (payload : Fields) (parsed : bool) (w : world) :
  mongodb (snd (through layers GET url payload parsed w)) = mongodb w.
Proof.
  revert parsed. induction layers as [| [| format | prefix r] layers IH]; intros parsed;
    cbn [through].
  - reflexivity.
  - apply IH.
  - specialize (IH parsed). unfold bind, console_log, modify, ret.
    destruct (through layers GET url payload parsed w) as [[response | error] w'];
      exact IH.
  - destruct (strip_prefix _ _ ≫= find_route (routes r) GET) as [[matched bound] |] eqn:Hfound;
      [| apply IH].
    destruct (strip_prefix (segments prefix) (segments url)) as [rest |];
      [| discriminate].
    apply find_route_get in Hfound. subst matched. apply handle_get_frame.
Qed.

(** X6: a GET request never writes.  Whatever its path, its body and the
    state of the service, and whatever layers the application has, the
    store and the application are left as they were. *)
Theorem get_requests_never_write (url : string) (payload : Fields) (w : world) :
  mongodb (snd (serve GET url payload w)) = mongodb w /\
  app (snd (serve GET url payload w)) = app w.
Proof.
  split; [| apply serve_app].
  unfold serve, bind at 1, get.
  destruct (listening (app w)); [| reflexivity].
  pose proof (through_get_frame (stack (app w)) url payload false w) as Hdb.
  unfold bind, ret.
  destruct (through (stack (app w)) GET url payload false w) as [[response | error] w'];
    exact Hdb.
Qed.

(** ** Spelling of identifiers *)







(** ** Requests that pass the rules *)








(** ** The routers before and after validation *)





(** ** What requests leave alone *)










(** ** A start-up that fails *)






(** ** The option the bootstrap sets *)





(** ** index.js as it stands *)





(** ** A second user of the same name, over HTTP *)



(** ** What a created task holds *)

(** X16: the task that [createTask] returns is the one it stored, last in
    the collection; it conforms to the schema, its title is the title given,
    letter for letter, and its user is the identifier the given text
    denotes; the users are left as they were. *)
Theorem created_task_reflects_record (data : Fields) (task : Document) (w w1 : world) :
  createTask data w = (Returned task, w1) ->
  exists title user owner,
    data !! "title" = Some title /\
    data !! "user" = Some user /\
    castObjectId user = Some owner /\
    task !! "title" = Some (VString title) /\
    task !! "user" = Some (VObjectId owner) /\
    task_conforms task /\
    tasks w1 = tasks w ++ [task] /\
    users w1 = users w.
Proof.
  rewrite createTask_run. cbn zeta.
  destruct (cast_task_cases data)
    as [(title & user & owner & Htitle & Hfull & Huser & Howner & ->)
       | (_ & reason & reasons & fields & ->)]; [| discriminate].
  destruct (connected (mongoose w)); [| discriminate].
  destruct (fault (mongodb w)); [discriminate |].
  intros [= <- <-].
  exists title, user, owner. repeat (split; [assumption |]).
  split.
  { unfold new_document, stamp; simpl.
    rewrite !lookup_insert_ne by discriminate. apply lookup_insert_eq. }
  split; [apply new_task_user |].
  split; [apply new_task_conforms; exact Hfull |].
  unfold tasks, users; simpl. split.
  - apply documents_insert.
  - apply documents_insert_other. discriminate.
Qed.

Lemma created_task_reflects_record_witness :
  let data := {[ "title" := "Sweep The Floor";
                 "user" := "00000000000000000000000A" ]} : Fields in
  exists task,
    returned (createTask data connected_service) = Some task /\
    task !! "title" = Some (VString "Sweep The Floor") /\
    task !! "user" = Some (VObjectId 10).
Proof.
  intros data.
  pose (task := new_document Task
                  (<["title" := VString "Sweep The Floor"]> (<["user" := VObjectId 10]> ∅))
                  connected_service).
  assert (createTask data connected_service
          = (Returned task, snd (createTask data connected_service))) as Hrun
    by (vm_compute; reflexivity).
  destruct (created_task_reflects_record data task connected_service _ Hrun)
    as (title & user & owner & Htitle & Huser & Howner & Hkept & Hcast & _).
  exists task. unfold returned. rewrite Hrun. split; [reflexivity |].
  assert (title = "Sweep The Floor") as -> by (vm_compute in Htitle; congruence).
  assert (user = "00000000000000000000000A") as -> by (vm_compute in Huser; congruence).
  assert (owner = 10) as -> by (vm_compute in Howner; congruence).
  split; [exact Hkept | exact Hcast].
Defined.
